(** * Profile router: phone verification and SMS settings

    A shallow embedding of [openmemory/api/app/routers/profile.py]: the two
    pydantic validators, the six request handlers and the collaborators they
    call, followed by the properties of the behavioural specification.

    Python values are modelled as follows.
    - [str] is [string]; every code point below 256 is an [ascii], and among
      those the class [\d] is exactly ['0'..'9'].
    - [int] is [Z]; [Optional[T]] is [option T].
    - the JSON column [metadata_] is an optional finite map with string keys.
    - an exception is a value of [Exception]; a handler is a computation in
      the monad [M], which threads the ORM object [user] and the log of the
      calls made on the database session. *)

From Stdlib Require Import ZArith Lia String Ascii Bool List.
From stdpp Require Import base gmap strings.
Import ListNotations.
Open Scope Z_scope.

(** ** Request validators *)

Module Validators.

(** The outcome of a pydantic validator: the value it returns, or the
    [ValueError] it raises. *)
Inductive Validated :=
  | Valid (v : string)
  | ValueError (msg : string).

(** [\d] on code points below 256. *)
Definition is_digit (c : ascii) : bool :=
  (Nat.leb 48 (nat_of_ascii c)) && (Nat.leb (nat_of_ascii c) 57).

(** The characters the class [[^\d+]] does NOT match: digits and ['+']. *)
Definition digit_or_plus (c : ascii) : bool :=
  is_digit c || Ascii.eqb c "+".

(** [re.sub(r'[^\d+]', '', v)]: drop every character that is neither a digit
    nor a plus sign. *)
Fixpoint re_sub_non_digit_plus (v : string) : string :=
  match v with
  | EmptyString => EmptyString
  | String c rest =>
      if digit_or_plus c then String c (re_sub_non_digit_plus rest)
      else re_sub_non_digit_plus rest
  end.

(** [s.startswith(p)]. *)
Definition startswith (s p : string) : bool := String.prefix p s.

(** The slice [s[n:]]. *)
Fixpoint slice_from (n : nat) (s : string) : string :=
  match n, s with
  | O, _ => s
  | S k, String _ rest => slice_from k rest
  | S _, EmptyString => EmptyString
  end.

(** The country-code branch of [validate_phone_number]. *)
Definition strip_country_code (cleaned : string) : string :=
  if startswith cleaned "+1" then slice_from 2 cleaned
  else if startswith cleaned "1" then slice_from 1 cleaned
  else cleaned.

(** [PhoneNumberRequest.validate_phone_number]. *)
Definition validate_phone_number (v : string) : Validated :=
  let cleaned := re_sub_non_digit_plus v in
  let cleaned := strip_country_code cleaned in
  if negb (Nat.eqb (String.length cleaned) 10) then
    ValueError "Phone number must be a valid 10-digit US number"
  else
    Valid ("+1" +:+ cleaned).

(** [\d{n}] matched at the start of [s]: what is left of [s] after [n]
    digits, when [s] starts with [n] digits. *)
Fixpoint match_digits (n : nat) (s : string) : option string :=
  match n with
  | O => Some s
  | S k =>
      match s with
      | String c rest => if is_digit c then match_digits k rest else None
      | EmptyString => None
      end
  end.

Definition newline : ascii := "010".

(** [$] without [re.MULTILINE]: it matches at the end of the string and also
    just before a newline that is the last character of the string. *)
Definition at_dollar (s : string) : bool :=
  match s with
  | EmptyString => true
  | String c EmptyString => Ascii.eqb c newline
  | String _ (String _ _) => false
  end.

(** [re.match(r'^\d{6}$', v)] as a truth value. *)
Definition re_match_six_digits (v : string) : bool :=
  match match_digits 6 v with
  | Some rest => at_dollar rest
  | None => false
  end.

(** [VerificationCodeRequest.validate_code]. *)
Definition validate_code (v : string) : Validated :=
  if negb (re_match_six_digits v) then
    ValueError "Verification code must be 6 digits"
  else
    Valid v.

(** What the specification asks of a verification code: exactly six
    characters, each of them a digit. *)
Fixpoint all_digits (s : string) : bool :=
  match s with
  | EmptyString => true
  | String c rest => is_digit c && all_digits rest
  end.

Definition six_digits (s : string) : bool :=
  Nat.eqb (String.length s) 6 && all_digits s.

(** The number of digits of a string, whatever else it contains. *)
Fixpoint count_digits (s : string) : nat :=
  match s with
  | EmptyString => O
  | String c rest => if is_digit c then S (count_digits rest) else count_digits rest
  end.

End Validators.

Import Validators.


(** ** Data model *)

(** Modelled from the spec: [SubscriptionTier] is declared in [app.models],
    outside this file; the specification gives its members as
    FREE / PRO / ENTERPRISE, and the handlers name the last two. *)
Inductive SubscriptionTier := FREE | PRO | ENTERPRISE.

Global Instance SubscriptionTier_eq_dec : EqDecision SubscriptionTier.
Proof. solve_decision. Defined.

(** A value stored in the JSON column [metadata_]. *)
Inductive Json :=
  | JNull
  | JBool (b : bool)
  | JInt (n : Z)
  | JStr (s : string).

(** The columns of the [User] row that the router reads or writes. *)
Record User := mkUser {
  id : Z;
  user_id : string;
  email : option string;
  name : option string;
  subscription_tier : SubscriptionTier;
  phone_number : option string;
  phone_verified : option bool;
  phone_verification_attempts : option Z;
  phone_verified_at : option Z;
  sms_enabled : option bool;
  metadata_ : option (gmap string Json)
}.

(** Attribute assignments [user.f = v]. *)
Definition set_phone_number (v : option string) (u : User) : User :=
  mkUser (id u) (user_id u) (email u) (name u) (subscription_tier u)
         v (phone_verified u) (phone_verification_attempts u)
         (phone_verified_at u) (sms_enabled u) (metadata_ u).

Definition set_phone_verified (v : option bool) (u : User) : User :=
  mkUser (id u) (user_id u) (email u) (name u) (subscription_tier u)
         (phone_number u) v (phone_verification_attempts u)
         (phone_verified_at u) (sms_enabled u) (metadata_ u).

Definition set_phone_verification_attempts (v : option Z) (u : User) : User :=
  mkUser (id u) (user_id u) (email u) (name u) (subscription_tier u)
         (phone_number u) (phone_verified u) v
         (phone_verified_at u) (sms_enabled u) (metadata_ u).

Definition set_phone_verified_at (v : option Z) (u : User) : User :=
  mkUser (id u) (user_id u) (email u) (name u) (subscription_tier u)
         (phone_number u) (phone_verified u) (phone_verification_attempts u)
         v (sms_enabled u) (metadata_ u).

Definition set_sms_enabled (v : option bool) (u : User) : User :=
  mkUser (id u) (user_id u) (email u) (name u) (subscription_tier u)
         (phone_number u) (phone_verified u) (phone_verification_attempts u)
         (phone_verified_at u) v (metadata_ u).

Definition set_metadata (v : option (gmap string Json)) (u : User) : User :=
  mkUser (id u) (user_id u) (email u) (name u) (subscription_tier u)
         (phone_number u) (phone_verified u) (phone_verification_attempts u)
         (phone_verified_at u) (sms_enabled u) v.

(** Python truth values of the optional columns. *)
Definition truthy_str (o : option string) : bool :=
  match o with
  | Some s => negb (String.eqb s "")
  | None => false
  end.

Definition truthy_bool (o : option bool) : bool :=
  match o with
  | Some b => b
  | None => false
  end.

Definition truthy_int (o : option Z) : bool :=
  match o with
  | Some n => negb (n =? 0)
  | None => false
  end.

Definition truthy_dict (o : option (gmap string Json)) : bool :=
  match o with
  | Some m => negb (bool_decide (m = ∅))
  | None => false
  end.

(** [user.phone_verified or False]. *)
Definition or_False (o : option bool) : bool := truthy_bool o.

(** [x if x is not None else True]. *)
Definition default_True (o : option bool) : bool :=
  match o with
  | Some b => b
  | None => true
  end.

(** [user.phone_verification_attempts or 0]. *)
Definition or_0 (o : option Z) : Z :=
  match o with
  | Some n => if truthy_int o then n else 0
  | None => 0
  end.

(** [x and x >= k] read as a condition: [None] and [0] are falsy, any other
    integer is compared. *)
Definition and_at_least (o : option Z) (k : Z) : bool :=
  match o with
  | Some n => negb (n =? 0) && (n >=? k)
  | None => false
  end.

(** ** Exceptions, the session log and the handler monad *)

Inductive Exception :=
  | HTTPException (status_code : Z) (detail : string)
  | DatabaseError (msg : string).

Definition is_HTTPException (e : Exception) : bool :=
  match e with
  | HTTPException _ _ => true
  | DatabaseError _ => false
  end.

(** The calls a handler makes on the database session.  A commit carries the
    state of the ORM object it flushes. *)
Inductive DbEvent :=
  | Commit (row : User)
  | CommitRaised (row : User)
  | Rollback.

(** What a handler threads: the ORM object bound to [user], with its
    attributes as last assigned, and the session log, oldest call first.
    What the database holds is read off the log ([last_committed]); no handler
    reads the object again after a rollback. *)
Record HState := mkHState {
  user : User;
  events : list DbEvent
}.

Definition M (A : Type) : Type := HState -> (Exception + A) * HState.

Definition ret {A} (a : A) : M A := fun s => (inr a, s).

Definition bind {A B} (m : M A) (k : A -> M B) : M B :=
  fun s =>
    match m s with
    | (inr a, s') => k a s'
    | (inl e, s') => (inl e, s')
    end.

Definition raise {A} (e : Exception) : M A := fun s => (inl e, s).

(** [try: body  except <class> as e: handler(e)]; an exception outside the
    class propagates. *)
Definition try_except {A} (body : M A) (catches : Exception -> bool)
    (handler : Exception -> M A) : M A :=
  fun s =>
    match body s with
    | (inr a, s') => (inr a, s')
    | (inl e, s') => if catches e then handler e s' else (inl e, s')
    end.

Definition get_user : M User := fun s => (inr (user s), s).

Definition assign (f : User -> User) : M unit :=
  fun s => (inr tt, mkHState (f (user s)) (events s)).

Definition put_user (u : User) : M unit := assign (fun _ => u).

Definition log_event (e : DbEvent) : M unit :=
  fun s => (inr tt, mkHState (user s) (events s ++ [e])).

(** [if c: raise e]. *)
Definition raise_if (c : bool) (e : Exception) : M unit :=
  if c then raise e else ret tt.

Declare Scope handler_scope.
Delimit Scope handler_scope with handler.
Notation "x <- m ;; k" := (bind m (fun x => k))
  (at level 100, m at next level, right associativity) : handler_scope.
Notation "m ;;; k" := (bind m (fun _ => k))
  (at level 100, right associativity) : handler_scope.
Open Scope handler_scope.

(** A request starts with the object returned by [get_or_create_user] and an
    empty log. *)
Definition start (u : User) : HState := mkHState u [].

Definition response {A} (r : (Exception + A) * HState) : Exception + A := fst r.
Definition user_after {A} (r : (Exception + A) * HState) : User := user (snd r).
Definition db_log {A} (r : (Exception + A) * HState) : list DbEvent := events (snd r).

(** The row as the database holds it once the request is over: the state the
    last successful commit flushed, or the initial row when nothing was
    committed. *)
Fixpoint last_committed (log : list DbEvent) (row : User) : User :=
  match log with
  | [] => row
  | Commit r :: rest => last_committed rest r
  | _ :: rest => last_committed rest row
  end.

(** ** Collaborators

    The router imports these from [app.middleware.subscription_middleware],
    [app.utils.sms] and [app.database]; it sees them only through their
    call/return contracts, so they are fields of the environment a handler
    runs in.  A collaborator that receives the ORM object may assign to its
    attributes, hence the [User] it returns. *)
Record World := mkWorld {
  (** [SubscriptionChecker.check_pro_features(user, feature)]: the exception
      it raises, if any. *)
  check_pro_features : User -> string -> option Exception;
  (** [sms_config.is_configured] *)
  is_configured : bool;
  SMS_VERIFICATION_TIMEOUT : Z;
  SMS_RATE_LIMIT_PRO : Z;
  SMS_RATE_LIMIT_ENTERPRISE : Z;
  (** [SMSVerification.generate_verification_code()] *)
  generate_verification_code : string;
  (** [SMSVerification.store_verification_code(user, code, db)] *)
  store_verification_code : User -> string -> bool * User;
  (** [SMSService().send_verification_code(phone_number, code)] *)
  send_verification_code : string -> string -> bool;
  (** [SMSVerification.verify_code(user, code, db)] *)
  verify_code : User -> string -> bool * User;
  (** [SMSRateLimit.check_rate_limit(user, db)]: (allowed, remaining) *)
  check_rate_limit : User -> bool * Z;
  (** the rows of the users table *)
  rows : list User;
  (** the exception [db.commit()] raises, if it raises *)
  commit_raises : option string
}.

(** ** Response bodies *)

Module ProfileResponse.
Record t := mk {
  user_id : string;
  email : option string;
  name : option string;
  subscription_tier : SubscriptionTier;  (* the member whose [.value] is sent *)
  phone_number : option string;
  phone_verified : bool;
  sms_enabled : bool
}.
End ProfileResponse.

Module AddPhoneResponse.
Record t := mk {
  message : string;
  phone_number : string;
  expires_in_minutes : Z
}.
End AddPhoneResponse.

Module VerifyPhoneResponse.
Record t := mk {
  message : string;
  phone_number : option string;
  verified : bool
}.
End VerifyPhoneResponse.

Module RemovePhoneResponse.
Record t := mk { message : string }.
End RemovePhoneResponse.

Module SmsSettingsResponse.
Record t := mk {
  message : string;
  sms_enabled : option bool
}.
End SmsSettingsResponse.

Module SmsUsageResponse.
Record t := mk {
  daily_limit : Z;
  used_today : Z;
  remaining_today : Z;
  subscription_tier : SubscriptionTier;  (* the member whose [.value] is sent *)
  phone_verified : bool;
  sms_enabled : bool
}.
End SmsUsageResponse.

(** ** Handlers *)

Section Handlers.

Variable w : World.

(** [db.commit()] *)
Definition db_commit : M unit :=
  u <- get_user ;;
  match commit_raises w with
  | Some msg => (log_event (CommitRaised u) ;;; raise (DatabaseError msg))
  | None => log_event (Commit u)
  end.

(** [db.rollback()] *)
Definition db_rollback : M unit := log_event Rollback.

(** The guarded commit shared by three of the handlers:
    [try: db.commit()  except Exception as e: db.rollback(); logger.error(..);
     raise HTTPException(status_code=500, detail="Database error")]. *)
Definition commit_or_rollback : M unit :=
  try_except db_commit (fun _ => true)
    (fun _ => db_rollback ;;; raise (HTTPException 500 "Database error")).

(** [try: SubscriptionChecker.check_pro_features(user, "SMS integration")
     except HTTPException as e: raise e]. *)
Definition require_pro : M unit :=
  try_except
    (u <- get_user ;;
     match check_pro_features w u "SMS integration" with
     | Some e => raise e
     | None => ret tt
     end)
    is_HTTPException
    (fun e => raise e).

(** [db.query(User).filter(User.phone_number == p, User.id != user.id).first()] *)
Definition other_user_with_phone (p : string) (u : User) : option User :=
  List.find
    (fun r => bool_decide (phone_number r = Some p) && negb (id r =? id u))
    (rows w).

Definition get_profile : M ProfileResponse.t :=
  u <- get_user ;;
  ret (ProfileResponse.mk
         (user_id u) (email u) (name u) (subscription_tier u)
         (phone_number u)
         (or_False (phone_verified u))
         (default_True (sms_enabled u))).

Definition add_phone_number (request_phone_number : string)
    : M AddPhoneResponse.t :=
  require_pro ;;;
  raise_if (negb (is_configured w))
    (HTTPException 503 "SMS service is not available at this time") ;;;
  u <- get_user ;;
  raise_if (and_at_least (phone_verification_attempts u) 5)
    (HTTPException 429 "Too many verification attempts. Please try again later.") ;;;
  raise_if (bool_decide (is_Some (other_user_with_phone request_phone_number u)))
    (HTTPException 409 "This phone number is already registered to another account") ;;;
  let verification_code := generate_verification_code w in
  let stored := store_verification_code w u verification_code in
  put_user (snd stored) ;;;
  raise_if (negb (fst stored))
    (HTTPException 500 "Failed to store verification code") ;;;
  raise_if (negb (send_verification_code w request_phone_number verification_code))
    (HTTPException 500 "Failed to send verification code") ;;;
  assign (set_phone_number (Some request_phone_number)) ;;;
  assign (set_phone_verified (Some false)) ;;;
  assign (fun u => set_phone_verification_attempts
                     (Some (or_0 (phone_verification_attempts u) + 1)) u) ;;;
  commit_or_rollback ;;;
  ret (AddPhoneResponse.mk
         "Verification code sent to your phone"
         request_phone_number
         (SMS_VERIFICATION_TIMEOUT w / 60)).

Definition verify_phone_number (request_verification_code : string)
    : M VerifyPhoneResponse.t :=
  require_pro ;;;
  u <- get_user ;;
  raise_if (negb (truthy_str (phone_number u)))
    (HTTPException 400 "No phone number to verify. Please add a phone number first.") ;;;
  let checked := verify_code w u request_verification_code in
  put_user (snd checked) ;;;
  if fst checked then
    assign (set_phone_verification_attempts (Some 0)) ;;;
    assign (set_sms_enabled (Some true)) ;;;
    db_commit ;;;
    u <- get_user ;;
    ret (VerifyPhoneResponse.mk
           "Phone number verified successfully"
           (phone_number u)
           true)
  else
    raise (HTTPException 400 "Invalid or expired verification code").

(** The entry is deleted from the mapping held by the object
    ([del user.metadata_['sms_verification']]). *)
Definition remove_phone_number : M RemovePhoneResponse.t :=
  assign (set_phone_number None) ;;;
  assign (set_phone_verified (Some false)) ;;;
  assign (set_phone_verification_attempts (Some 0)) ;;;
  assign (set_phone_verified_at None) ;;;
  assign (set_sms_enabled (Some false)) ;;;
  u <- get_user ;;
  (if truthy_dict (metadata_ u)
      && bool_decide (is_Some (default ∅ (metadata_ u) !! "sms_verification"))
   then assign (set_metadata (delete "sms_verification" <$> metadata_ u))
   else ret tt) ;;;
  commit_or_rollback ;;;
  ret (RemovePhoneResponse.mk "Phone number removed successfully").

Definition update_sms_settings (request_sms_enabled : bool)
    : M SmsSettingsResponse.t :=
  u <- get_user ;;
  raise_if (negb (truthy_bool (phone_verified u)))
    (HTTPException 400 "Phone number must be verified before changing SMS settings") ;;;
  assign (set_sms_enabled (Some request_sms_enabled)) ;;;
  commit_or_rollback ;;;
  u <- get_user ;;
  ret (SmsSettingsResponse.mk
         "SMS settings updated successfully"
         (sms_enabled u)).

Definition get_sms_usage : M SmsUsageResponse.t :=
  require_pro ;;;
  u <- get_user ;;
  let '(allowed, remaining) := check_rate_limit w u in
  let daily_limit :=
    if bool_decide (subscription_tier u = ENTERPRISE) then SMS_RATE_LIMIT_ENTERPRISE w
    else if bool_decide (subscription_tier u = PRO) then SMS_RATE_LIMIT_PRO w
    else 0 in
  let used_today := if allowed then daily_limit - remaining else daily_limit in
  ret (SmsUsageResponse.mk
         daily_limit used_today remaining
         (subscription_tier u)
         (or_False (phone_verified u))
         (default_True (sms_enabled u))).

End Handlers.

(** ** Definitions used by the statements *)

(** The first precondition of [add_phone_number] that fails, in the order the
    specification lists them, with the error it asks for.  The entitlement
    error is whatever the checker raises. *)
Inductive precondition_failure (w : World) (p : string) (u : User)
    : Exception -> Prop :=
  | no_entitlement e :
      check_pro_features w u "SMS integration" = Some e ->
      precondition_failure w p u e
  | sms_not_configured :
      check_pro_features w u "SMS integration" = None ->
      is_configured w = false ->
      precondition_failure w p u
        (HTTPException 503 "SMS service is not available at this time")
  | too_many_attempts n :
      check_pro_features w u "SMS integration" = None ->
      is_configured w = true ->
      phone_verification_attempts u = Some n ->
      5 <= n ->
      precondition_failure w p u
        (HTTPException 429 "Too many verification attempts. Please try again later.")
  | phone_taken other :
      check_pro_features w u "SMS integration" = None ->
      is_configured w = true ->
      (forall n, phone_verification_attempts u = Some n -> n < 5) ->
      In other (rows w) ->
      phone_number other = Some p ->
      id other <> id u ->
      precondition_failure w p u
        (HTTPException 409 "This phone number is already registered to another account").

(** The metadata mapping after the conditional [del]. *)
Definition without_sms_verification (o : option (gmap string Json))
    : option (gmap string Json) :=
  if truthy_dict o && bool_decide (is_Some (default ∅ o !! "sms_verification"))
  then delete "sms_verification" <$> o
  else o.

(** The limit [get_sms_usage] selects for a tier. *)
Definition tier_limit (w : World) (t : SubscriptionTier) : Z :=
  match t with
  | ENTERPRISE => SMS_RATE_LIMIT_ENTERPRISE w
  | PRO => SMS_RATE_LIMIT_PRO w
  | FREE => 0
  end.

(** The profile a later request reads: [get_profile] on the row the database
    holds after the request whose outcome is [r]. *)
Definition profile_read_after {A} (u : User)
    (r : (Exception + A) * HState) : Exception + ProfileResponse.t :=
  response (get_profile (start (last_committed (db_log r) u))).

(** The environment with another entitlement checker. *)
Definition with_checker (c : User -> string -> option Exception) (w : World)
    : World :=
  mkWorld c (is_configured w) (SMS_VERIFICATION_TIMEOUT w) (SMS_RATE_LIMIT_PRO w)
          (SMS_RATE_LIMIT_ENTERPRISE w) (generate_verification_code w)
          (store_verification_code w) (send_verification_code w)
          (verify_code w) (check_rate_limit w) (rows w) (commit_raises w).


(** The row the database holds after [n] add requests in a row, each one
    made by the user as the previous request left it. *)
Fixpoint after_adds (w : World) (p : string) (n : nat) (u : User) : User :=
  match n with
  | O => u
  | S k =>
      let u' := after_adds w p k u in
      last_committed (db_log (add_phone_number w p (start u'))) u'
  end.

(** ** Example environments *)

Module Examples.

(** An entitlement checker for the examples: it turns away the FREE tier. *)
Definition pro_only (u : User) (feature : string) : option Exception :=
  match subscription_tier u with
  | FREE => Some (HTTPException 403 (feature +:+ " requires a Pro subscription"))
  | PRO | ENTERPRISE => None
  end.

(** A verification collaborator that compares the code and touches nothing. *)
Definition code_is (expected : string) (u : User) (code : string) : bool * User :=
  (String.eqb code expected, u).

(** A verification collaborator that also marks the phone as verified. *)
Definition code_is_marking (expected : string) (u : User) (code : string)
    : bool * User :=
  if String.eqb code expected
  then (true, set_phone_verified_at (Some 1700000000) (set_phone_verified (Some true) u))
  else (false, u).

Definition storing (u : User) (code : string) : bool * User :=
  (true, set_metadata
           (Some (<["sms_verification" := JStr code]> (default ∅ (metadata_ u)))) u).

Definition world (rows : list User) (commit_raises : option string) : World :=
  mkWorld pro_only true 600 50 200 "424242" storing (fun _ _ => true)
          (code_is "424242") (fun _ => (true, 7)) rows commit_raises.

(** The same with a verification collaborator that marks the phone. *)
Definition marking_world : World :=
  mkWorld pro_only true 600 50 200 "424242" storing (fun _ _ => true)
          (code_is_marking "424242") (fun _ => (true, 7)) [] None.

(** The same with an SMS gateway that does not send. *)
Definition sms_down : World :=
  mkWorld pro_only true 600 50 200 "424242" storing (fun _ _ => false)
          (code_is "424242") (fun _ => (true, 7)) [] None.

(** The same with a code store that fails. *)
Definition store_down : World :=
  mkWorld pro_only true 600 50 200 "424242" (fun u _ => (false, u))
          (fun _ _ => true) (code_is "424242") (fun _ => (true, 7)) [] None.

(** The same with the SMS subsystem not configured. *)
Definition unconfigured : World :=
  mkWorld pro_only false 600 50 200 "424242" storing (fun _ _ => true)
          (code_is "424242") (fun _ => (true, 7)) [] None.

(** The same, with an entitlement checker that lets everybody through. *)
Definition open_world (limit : bool * Z) : World :=
  mkWorld (fun _ _ => None) true 600 50 200 "424242" storing (fun _ _ => true)
          (code_is "424242") (fun _ => limit) [] None.

Definition alice : User :=
  mkUser 1 "auth|alice" (Some "alice@example.com") (Some "Alice") PRO
         (Some "+15555550100") (Some false) (Some 1) None (Some true)
         (Some {[ "sms_verification" := JStr "424242"; "theme" := JStr "dark" ]}).

Definition alice_verified : User :=
  set_sms_enabled (Some false) (set_phone_verified (Some true) alice).

Definition bob : User :=
  mkUser 2 "auth|bob" (Some "bob@example.com") None ENTERPRISE
         (Some "+15555550199") (Some true) (Some 0) (Some 1690000000) (Some true)
         None.

Definition carol : User :=
  mkUser 3 "auth|carol" None None PRO None None (Some 5) None None None.

Definition dave : User :=
  mkUser 4 "auth|dave" None None FREE None None None None None None.

(** A new Pro user: no phone, no attempt recorded. *)
Definition erin : User :=
  mkUser 5 "auth|erin" None None PRO None None None None None None.

(** A user whose stored phone number is the empty string. *)
Definition frank : User :=
  mkUser 6 "auth|frank" None None PRO (Some "") None None None None None.

End Examples.

(** ** Running the monad *)

Lemma bind_inr {A B} (m : M A) (k : A -> M B) s a s' :
  m s = (inr a, s') -> bind m k s = k a s'.
Proof. intros H. unfold bind. now rewrite H. Qed.

Lemma bind_inl {A B} (m : M A) (k : A -> M B) s e s' :
  m s = (inl e, s') -> bind m k s = (inl e, s').
Proof. intros H. unfold bind. now rewrite H. Qed.

Lemma require_pro_ok w s :
  check_pro_features w (user s) "SMS integration" = None ->
  require_pro w s = (inr tt, s).
Proof.
  intros H. unfold require_pro, try_except, bind, get_user. now rewrite H.
Qed.

Lemma require_pro_raises w s e :
  check_pro_features w (user s) "SMS integration" = Some e ->
  require_pro w s = (inl e, s).
Proof.
  intros H. unfold require_pro, try_except, bind, get_user. rewrite H.
  unfold raise. now destruct (is_HTTPException e).
Qed.

Lemma commit_or_rollback_ok w s :
  commit_raises w = None ->
  commit_or_rollback w s
  = (inr tt, mkHState (user s) (events s ++ [Commit (user s)])).
Proof.
  intros H. unfold commit_or_rollback, try_except, db_commit, bind, get_user.
  now rewrite H.
Qed.

Lemma commit_or_rollback_raises w s msg :
  commit_raises w = Some msg ->
  commit_or_rollback w s
  = (inl (HTTPException 500 "Database error"),
     mkHState (user s) ((events s ++ [CommitRaised (user s)]) ++ [Rollback])).
Proof.
  intros H. unfold commit_or_rollback, try_except, db_commit, bind, get_user.
  now rewrite H.
Qed.

(** Unfold the monad and take every step whose outcome is known. *)
Ltac run :=
  repeat first
    [ rewrite require_pro_ok by (simpl; assumption)
    | erewrite require_pro_raises by (simpl; eassumption)
    | rewrite commit_or_rollback_ok by assumption
    | erewrite commit_or_rollback_raises by eassumption
    | progress (cbv [bind ret raise raise_if get_user assign put_user log_event
                     user events fst snd start response user_after db_log
                     negb app]) ].

(** Read a column through the assignments made so far. *)
Ltac columns :=
  unfold set_phone_number, set_phone_verified, set_phone_verification_attempts,
    set_phone_verified_at, set_sms_enabled, set_metadata;
  cbn [id user_id email name subscription_tier phone_number phone_verified
       phone_verification_attempts phone_verified_at sms_enabled metadata_].

(** Case analysis on the condition of the first conditional of the goal. *)
Ltac case_test :=
  match goal with
  | |- context [if ?c then _ else _] => destruct c eqn:?
  end.

(** ** add_phone_number: the order of the precondition checks *)

Lemma and_at_least_true o k :
  0 < k -> and_at_least o k = true <-> exists n, o = Some n /\ k <= n.
Proof.
  intros Hk. unfold and_at_least. destruct o as [n|].
  - rewrite andb_true_iff, negb_true_iff, Z.eqb_neq, Z.geb_le. split.
    + intros [_ H]. now exists n.
    + intros (m & [= <-] & H). lia.
  - split; [discriminate | intros (m & H & _); discriminate].
Qed.

Lemma and_at_least_false o k :
  (forall n, o = Some n -> n < k) -> and_at_least o k = false.
Proof.
  intros H. unfold and_at_least. destruct o as [n|]; [|reflexivity].
  specialize (H n eq_refl). apply andb_false_iff. right.
  destruct (n >=? k) eqn:E; [|reflexivity]. apply Z.geb_le in E. lia.
Qed.

Lemma other_user_with_phone_found w p u other :
  In other (rows w) -> phone_number other = Some p -> id other <> id u ->
  is_Some (other_user_with_phone w p u).
Proof.
  unfold other_user_with_phone. intros Hin Hp Hid.
  destruct (find _ (rows w)) eqn:E; [eauto|].
  exfalso. eapply find_none in E; [|exact Hin]. simpl in E.
  rewrite bool_decide_eq_true_2 in E by assumption.
  apply Z.eqb_neq in Hid. rewrite Hid in E. discriminate.
Qed.

Lemma other_user_with_phone_sound w p u r :
  other_user_with_phone w p u = Some r ->
  In r (rows w) /\ phone_number r = Some p /\ id r <> id u.
Proof.
  unfold other_user_with_phone. intros H. apply find_some in H as [Hin H].
  apply andb_true_iff in H as [H1 H2].
  apply bool_decide_eq_true_1 in H1. apply negb_true_iff, Z.eqb_neq in H2.
  auto.
Qed.

(** The three gated handlers surface the checker's error first. *)
Lemma add_phone_number_requires_pro w p u e :
  check_pro_features w u "SMS integration" = Some e ->
  add_phone_number w p (start u) = (inl e, start u).
Proof.
  intros He. unfold add_phone_number.
  erewrite bind_inl; [reflexivity|]. now apply require_pro_raises.
Qed.

Lemma verify_phone_number_requires_pro w code u e :
  check_pro_features w u "SMS integration" = Some e ->
  verify_phone_number w code (start u) = (inl e, start u).
Proof.
  intros He. unfold verify_phone_number.
  erewrite bind_inl; [reflexivity|]. now apply require_pro_raises.
Qed.

Lemma get_sms_usage_requires_pro w u e :
  check_pro_features w u "SMS integration" = Some e ->
  get_sms_usage w (start u) = (inl e, start u).
Proof.
  intros He. unfold get_sms_usage.
  erewrite bind_inl; [reflexivity|]. now apply require_pro_raises.
Qed.

(** C4. The precondition checks of [add_phone_number] run in the order
    entitlement, SMS configured, attempt cap, phone taken: the first one that
    fails decides the error (the checker's own error, 503, 429, 409), the
    later ones are not consulted, and nothing is assigned or committed. A user
    with 5 or more attempts gets the 429 whatever the table holds. *)
Theorem add_phone_number_precondition_order w p u e :
  precondition_failure w p u e ->
  add_phone_number w p (start u) = (inl e, start u).
Proof.
  intros H.
  destruct H as [e He | Hc Hcfg | n Hc Hcfg Hn Hge | other Hc Hcfg Hlt Hin Hp Hid];
    [now apply add_phone_number_requires_pro | unfold add_phone_number ..].
  - run. rewrite Hcfg. reflexivity.
  - run. rewrite Hcfg. run.
    assert (Ha : and_at_least (phone_verification_attempts u) 5 = true).
    { apply and_at_least_true; [lia|]. eauto. }
    rewrite Ha. reflexivity.
  - run. rewrite Hcfg. run.
    rewrite and_at_least_false by assumption. run.
    rewrite bool_decide_eq_true_2
      by (eapply other_user_with_phone_found; eassumption).
    reflexivity.
Qed.

Lemma add_phone_number_precondition_order_witness :
  add_phone_number (Examples.world [] None) "+15555550111" (start Examples.dave)
  = (inl (HTTPException 403 "SMS integration requires a Pro subscription"),
     start Examples.dave)
  /\ add_phone_number Examples.unconfigured "+15555550111" (start Examples.carol)
     = (inl (HTTPException 503 "SMS service is not available at this time"),
        start Examples.carol)
  /\ add_phone_number (Examples.world [] None) "+15555550111" (start Examples.carol)
     = (inl (HTTPException 429
               "Too many verification attempts. Please try again later."),
        start Examples.carol)
  /\ add_phone_number (Examples.world [Examples.alice; Examples.bob] None)
       "+15555550199" (start Examples.alice)
     = (inl (HTTPException 409
               "This phone number is already registered to another account"),
        start Examples.alice).
Proof.
  split; [|split; [|split]].
  - apply add_phone_number_precondition_order.
    apply no_entitlement. reflexivity.
  - apply add_phone_number_precondition_order.
    apply sms_not_configured; reflexivity.
  - apply add_phone_number_precondition_order.
    apply too_many_attempts with (n := 5); [reflexivity | reflexivity | reflexivity | lia].
  - apply add_phone_number_precondition_order.
    apply phone_taken with (other := Examples.bob);
      [reflexivity | reflexivity | | | reflexivity | ].
    + intros n [= <-]. lia.
    + simpl. auto.
    + simpl. lia.
Defined.

(** X16. With every precondition met, the code stored and sent and the commit
    through, [add_phone_number] records the number, clears the verified flag,
    counts one more attempt and answers with the expiry in minutes. *)
Lemma add_phone_number_success w p u u1 :
  check_pro_features w u "SMS integration" = None ->
  is_configured w = true ->
  and_at_least (phone_verification_attempts u) 5 = false ->
  other_user_with_phone w p u = None ->
  store_verification_code w u (generate_verification_code w) = (true, u1) ->
  send_verification_code w p (generate_verification_code w) = true ->
  commit_raises w = None ->
  let r := add_phone_number w p (start u) in
  response r
  = inr (AddPhoneResponse.mk "Verification code sent to your phone" p
           (SMS_VERIFICATION_TIMEOUT w / 60))
  /\ phone_number (user_after r) = Some p
  /\ phone_verified (user_after r) = Some false
  /\ phone_verification_attempts (user_after r)
     = Some (or_0 (phone_verification_attempts u1) + 1)
  /\ db_log r = [Commit (user_after r)].
Proof.
  intros Hc Hcfg Ha Ho Hst Hse H r. subst r. unfold add_phone_number. run.
  rewrite Hcfg, Ha, Ho, Hst, Hse. run.
  rewrite bool_decide_eq_false_2 by (intros [? ?]; discriminate).
  run. columns. repeat split.
Qed.

(** ** Commit failures *)

(** The guarded commit rolls back and answers 500, from any state. *)
Lemma commit_or_rollback_rolls_back w s msg :
  commit_raises w = Some msg ->
  response (commit_or_rollback w s) = inl (HTTPException 500 "Database error")
  /\ db_log (commit_or_rollback w s)
     = events s ++ [CommitRaised (user s); Rollback].
Proof.
  intros H. rewrite (commit_or_rollback_raises w s msg H). split; [reflexivity|].
  unfold db_log. simpl. now rewrite <- app_assoc.
Qed.

Lemma remove_phone_number_rolls_back w u msg :
  commit_raises w = Some msg ->
  exists u',
    remove_phone_number w (start u)
    = (inl (HTTPException 500 "Database error"),
       mkHState u' [CommitRaised u'; Rollback]).
Proof.
  intros H. unfold remove_phone_number. run.
  case_test; run; eexists; reflexivity.
Qed.

Lemma update_sms_settings_rolls_back w u b msg :
  truthy_bool (phone_verified u) = true ->
  commit_raises w = Some msg ->
  update_sms_settings w b (start u)
  = (inl (HTTPException 500 "Database error"),
     mkHState (set_sms_enabled (Some b) u)
       [CommitRaised (set_sms_enabled (Some b) u); Rollback]).
Proof.
  intros Hv H. unfold update_sms_settings. run. rewrite Hv. run. reflexivity.
Qed.

Lemma add_phone_number_rolls_back w p u u1 msg :
  check_pro_features w u "SMS integration" = None ->
  is_configured w = true ->
  and_at_least (phone_verification_attempts u) 5 = false ->
  other_user_with_phone w p u = None ->
  store_verification_code w u (generate_verification_code w) = (true, u1) ->
  send_verification_code w p (generate_verification_code w) = true ->
  commit_raises w = Some msg ->
  exists u',
    add_phone_number w p (start u)
    = (inl (HTTPException 500 "Database error"),
       mkHState u' [CommitRaised u'; Rollback]).
Proof.
  intros Hc Hcfg Ha Ho Hst Hse H. unfold add_phone_number. run.
  rewrite Hcfg, Ha, Ho, Hst, Hse. run.
  rewrite bool_decide_eq_false_2 by (intros [? ?]; discriminate).
  run. eexists. reflexivity.
Qed.

(** The commit of [verify_phone_number] is not guarded: the exception leaves
    the handler as it is, and the session is not rolled back. *)
Lemma verify_phone_number_commit_raises w code u u1 msg :
  check_pro_features w u "SMS integration" = None ->
  truthy_str (phone_number u) = true ->
  verify_code w u code = (true, u1) ->
  commit_raises w = Some msg ->
  let flushed :=
    set_sms_enabled (Some true) (set_phone_verification_attempts (Some 0) u1) in
  verify_phone_number w code (start u)
  = (inl (DatabaseError msg), mkHState flushed [CommitRaised flushed]).
Proof.
  intros Hc Hp Hv H flushed. unfold verify_phone_number. run.
  rewrite Hp, Hv. run. unfold db_commit. run. rewrite H. run. reflexivity.
Qed.

(** C1. A commit that raises is rolled back before the 500 is surfaced in
    [add_phone_number], [remove_phone_number] and [update_sms_settings]; in
    [verify_phone_number] it is not: with the same failing session the
    handler lets the raw exception out and the log has no rollback. *)
Theorem verify_phone_number_commit_failure_not_rolled_back :
  let w := Examples.world [] (Some "connection lost") in
  let r := verify_phone_number w "424242" (start Examples.alice) in
  response r = inl (DatabaseError "connection lost")
  /\ ~ In Rollback (db_log r)
  /\ (exists flushed, db_log r = [CommitRaised flushed])
  /\ response (remove_phone_number w (start Examples.alice))
     = inl (HTTPException 500 "Database error")
  /\ In Rollback (db_log (remove_phone_number w (start Examples.alice)))
  /\ response (update_sms_settings w true (start Examples.alice_verified))
     = inl (HTTPException 500 "Database error")
  /\ In Rollback (db_log (update_sms_settings w true (start Examples.alice_verified)))
  /\ response (add_phone_number w "+15555550111" (start Examples.alice))
     = inl (HTTPException 500 "Database error")
  /\ In Rollback (db_log (add_phone_number w "+15555550111" (start Examples.alice))).
Proof.
  cbv zeta.
  rewrite (verify_phone_number_commit_raises _ "424242" Examples.alice
             Examples.alice "connection lost")
    by reflexivity.
  destruct (remove_phone_number_rolls_back
              (Examples.world [] (Some "connection lost")) Examples.alice
              "connection lost" eq_refl) as [u1 ->].
  rewrite (update_sms_settings_rolls_back _ Examples.alice_verified true
             "connection lost") by reflexivity.
  destruct (add_phone_number_rolls_back
              (Examples.world [] (Some "connection lost")) "+15555550111"
              Examples.alice (snd (Examples.storing Examples.alice "424242"))
              "connection lost") as [u2 ->]; try reflexivity.
  unfold response, db_log. simpl.
  repeat split; eauto.
  intros [H | []]. discriminate.
Qed.

(** ** verify_phone_number on an accepted code *)

(** C2 (as amended). With the entitlement granted, a phone number present, a
    code the collaborator accepts and a commit that goes through, the handler
    sets the attempt counter to 0 and sms_enabled to true on the object the
    collaborator handed back, commits that state and answers success with the
    phone number and [verified = true]. It does not assign the verified flag:
    the stored flag is the one the collaborator left. *)
Theorem verify_phone_number_success w code u u1 :
  check_pro_features w u "SMS integration" = None ->
  truthy_str (phone_number u) = true ->
  verify_code w u code = (true, u1) ->
  commit_raises w = None ->
  let r := verify_phone_number w code (start u) in
  response r
  = inr (VerifyPhoneResponse.mk "Phone number verified successfully"
           (phone_number u1) true)
  /\ phone_verification_attempts (user_after r) = Some 0
  /\ sms_enabled (user_after r) = Some true
  /\ phone_verified (user_after r) = phone_verified u1
  /\ phone_number (user_after r) = phone_number u1
  /\ db_log r = [Commit (user_after r)].
Proof.
  intros Hc Hp Hv H r. subst r. unfold verify_phone_number. run.
  rewrite Hp, Hv. run. unfold db_commit. run. rewrite H. run.
  repeat split.
Qed.

Lemma verify_phone_number_success_witness :
  let r := verify_phone_number (Examples.world [] None) "424242"
             (start Examples.alice) in
  response r
  = inr (VerifyPhoneResponse.mk "Phone number verified successfully"
           (Some "+15555550100") true)
  /\ phone_verification_attempts (user_after r) = Some 0
  /\ sms_enabled (user_after r) = Some true
  /\ phone_verified (user_after r) = Some false
  /\ phone_number (user_after r) = Some "+15555550100"
  /\ db_log r = [Commit (user_after r)].
Proof.
  apply (verify_phone_number_success (Examples.world [] None) "424242"
           Examples.alice Examples.alice); reflexivity.
Defined.

(** C2 (as stated) fails: the phone is present, the collaborator accepts the
    code, the handler commits and answers success, and the verified flag of
    the user is still false. *)
Lemma verify_phone_number_leaves_verified_flag :
  let w := Examples.world [] None in
  let r := verify_phone_number w "424242" (start Examples.alice) in
  truthy_str (phone_number Examples.alice) = true
  /\ fst (verify_code w Examples.alice "424242") = true
  /\ response r
     = inr (VerifyPhoneResponse.mk "Phone number verified successfully"
              (Some "+15555550100") true)
  /\ phone_verified (user_after r) <> Some true
  /\ phone_verified (last_committed (db_log r) Examples.alice) <> Some true.
Proof.
  cbv zeta. vm_compute. repeat split; discriminate.
Qed.

(** With a collaborator that marks the phone as verified, the flag the
    handler commits is the collaborator's [true]. *)
Lemma verify_phone_number_keeps_collaborator_flag :
  let r := verify_phone_number Examples.marking_world "424242"
             (start Examples.alice) in
  phone_verified (user_after r) = Some true
  /\ phone_verified (last_committed (db_log r) Examples.alice) = Some true
  /\ phone_verification_attempts (user_after r) = Some 0
  /\ sms_enabled (user_after r) = Some true.
Proof. cbv zeta. vm_compute. repeat split. Qed.

(** ** remove_phone_number *)

Lemma truthy_dict_false_lookup (m : gmap string Json) k :
  truthy_dict (Some m) = false -> m !! k = None.
Proof.
  unfold truthy_dict. rewrite negb_false_iff. intros H.
  apply bool_decide_eq_true_1 in H. subst m. apply lookup_empty.
Qed.

Lemma without_sms_verification_None : without_sms_verification None = None.
Proof. reflexivity. Qed.

Lemma without_sms_verification_Some m :
  exists m', without_sms_verification (Some m) = Some m'
             /\ m' !! "sms_verification" = None
             /\ forall k, k <> "sms_verification" -> m' !! k = m !! k.
Proof.
  unfold without_sms_verification.
  destruct (truthy_dict (Some m) && _) eqn:E.
  - exists (delete "sms_verification" m). split; [reflexivity|]. split.
    + apply lookup_delete_eq.
    + intros k Hk. now apply lookup_delete_ne.
  - exists m. split; [reflexivity|]. split; [|reflexivity].
    apply andb_false_iff in E as [E | E].
    + now apply truthy_dict_false_lookup.
    + apply bool_decide_eq_false_1 in E. simpl in E.
      destruct (m !! "sms_verification") eqn:El; [|reflexivity].
      exfalso. apply E. eauto.
Qed.

(** The state [remove_phone_number] hands to the commit. *)
Lemma remove_phone_number_run w u :
  let u' := mkUser (id u) (user_id u) (email u) (name u) (subscription_tier u)
              None (Some false) (Some 0) None (Some false)
              (without_sms_verification (metadata_ u)) in
  remove_phone_number w (start u)
  = match commit_raises w with
    | None =>
        (inr (RemovePhoneResponse.mk "Phone number removed successfully"),
         mkHState u' [Commit u'])
    | Some _ =>
        (inl (HTTPException 500 "Database error"),
         mkHState u' [CommitRaised u'; Rollback])
    end.
Proof.
  cbv zeta. unfold remove_phone_number, without_sms_verification. run.
  columns.
  destruct (commit_raises w) as [msg|] eqn:Hcr;
    destruct (truthy_dict (metadata_ u) && _); run; columns; reflexivity.
Qed.

(** C5. Whatever the user and the environment, [remove_phone_number] assigns
    None / False / 0 / None / False to the phone number, the verified flag,
    the attempt counter, the verified-at timestamp and sms_enabled, takes the
    'sms_verification' entry out of the metadata mapping and keeps every other
    entry and every other column; that state is the one it commits. *)
Theorem remove_phone_number_clears w u :
  let r := remove_phone_number w (start u) in
  let u' := user_after r in
  phone_number u' = None
  /\ phone_verified u' = Some false
  /\ phone_verification_attempts u' = Some 0
  /\ phone_verified_at u' = None
  /\ sms_enabled u' = Some false
  /\ (metadata_ u = None -> metadata_ u' = None)
  /\ (forall m, metadata_ u = Some m ->
        exists m', metadata_ u' = Some m'
                   /\ m' !! "sms_verification" = None
                   /\ forall k, k <> "sms_verification" -> m' !! k = m !! k)
  /\ id u' = id u /\ user_id u' = user_id u /\ email u' = email u
  /\ name u' = name u /\ subscription_tier u' = subscription_tier u
  /\ (db_log r = [Commit u'] \/ db_log r = [CommitRaised u'; Rollback]).
Proof.
  cbv zeta. rewrite remove_phone_number_run.
  destruct (commit_raises w); unfold user_after, db_log; simpl;
    (repeat split; auto;
     [ intros ->; reflexivity
     | intros m ->; apply without_sms_verification_Some ]).
Qed.

Lemma remove_phone_number_clears_witness :
  let u' := user_after (remove_phone_number (Examples.world [] None)
                          (start Examples.alice)) in
  phone_number u' = None
  /\ sms_enabled u' = Some false
  /\ exists m', metadata_ u' = Some m'
                /\ m' !! "sms_verification" = None
                /\ m' !! "theme" = Some (JStr "dark").
Proof.
  destruct (remove_phone_number_clears (Examples.world [] None) Examples.alice)
    as (Hp & _ & _ & _ & Hs & _ & Hm & _).
  split; [exact Hp|]. split; [exact Hs|].
  destruct (Hm _ eq_refl) as (m' & Hm' & Hgone & Hkept).
  exists m'. split; [exact Hm'|]. split; [exact Hgone|].
  rewrite Hkept by discriminate. reflexivity.
Defined.

(** ** get_sms_usage *)

Lemma get_sms_usage_run w u allowed remaining :
  check_pro_features w u "SMS integration" = None ->
  check_rate_limit w u = (allowed, remaining) ->
  get_sms_usage w (start u)
  = (inr (SmsUsageResponse.mk
            (tier_limit w (subscription_tier u))
            (if allowed then tier_limit w (subscription_tier u) - remaining
             else tier_limit w (subscription_tier u))
            remaining
            (subscription_tier u)
            (or_False (phone_verified u))
            (default_True (sms_enabled u))),
     start u).
Proof.
  intros Hc Hr. unfold get_sms_usage. run. rewrite Hr.
  destruct (subscription_tier u); reflexivity.
Qed.

(** C6 (as amended). For a user who passes the entitlement check:
    remaining_today is the value the rate-limit collaborator reports; the
    daily limit is 0 for Free and the configured limit for Pro and Enterprise;
    when the collaborator allows, used_today + remaining_today = daily_limit;
    when it does not, used_today = daily_limit. *)
Theorem get_sms_usage_accounting w u allowed remaining :
  check_pro_features w u "SMS integration" = None ->
  check_rate_limit w u = (allowed, remaining) ->
  exists r,
    get_sms_usage w (start u) = (inr r, start u)
    /\ SmsUsageResponse.remaining_today r = remaining
    /\ (subscription_tier u = FREE -> SmsUsageResponse.daily_limit r = 0)
    /\ (subscription_tier u = PRO ->
        SmsUsageResponse.daily_limit r = SMS_RATE_LIMIT_PRO w)
    /\ (subscription_tier u = ENTERPRISE ->
        SmsUsageResponse.daily_limit r = SMS_RATE_LIMIT_ENTERPRISE w)
    /\ (allowed = true ->
        SmsUsageResponse.used_today r + SmsUsageResponse.remaining_today r
        = SmsUsageResponse.daily_limit r)
    /\ (allowed = false ->
        SmsUsageResponse.used_today r = SmsUsageResponse.daily_limit r).
Proof.
  intros Hc Hr. eexists. split; [exact (get_sms_usage_run w u allowed remaining Hc Hr)|]. simpl.
  repeat split.
  - now intros ->.
  - now intros ->.
  - now intros ->.
  - intros ->. lia.
  - now intros ->.
Qed.

Lemma get_sms_usage_accounting_witness :
  exists r,
    get_sms_usage (Examples.world [] None) (start Examples.bob)
    = (inr r, start Examples.bob)
    /\ SmsUsageResponse.remaining_today r = 7
    /\ SmsUsageResponse.daily_limit r = 200
    /\ SmsUsageResponse.used_today r = 193.
Proof.
  destruct (get_sms_usage_accounting (Examples.world [] None) Examples.bob
              true 7 eq_refl eq_refl)
    as (r & Hrun & Hrem & _ & _ & Hent & Hsum & _).
  exists r. specialize (Hent eq_refl). specialize (Hsum eq_refl).
  simpl in Hent. repeat split; [assumption | assumption | assumption | lia].
Defined.

(** C6 (as stated) fails on its Free clause: a Free user whom the checker
    lets through, and for whom the rate-limit collaborator reports 3, gets
    daily_limit 0 and remaining_today 3. *)
Lemma get_sms_usage_free_remaining_not_zero :
  let w := Examples.open_world (true, 3) in
  subscription_tier Examples.dave = FREE
  /\ check_pro_features w Examples.dave "SMS integration" = None
  /\ exists r,
       get_sms_usage w (start Examples.dave) = (inr r, start Examples.dave)
       /\ SmsUsageResponse.daily_limit r = 0
       /\ SmsUsageResponse.remaining_today r = 3
       /\ SmsUsageResponse.remaining_today r <> 0.
Proof.
  cbv zeta. split; [reflexivity|]. split; [reflexivity|].
  eexists. split; [reflexivity|]. simpl. repeat split. lia.
Qed.

(** C10. For a user who passes the entitlement check with a tier that is
    neither Pro nor Enterprise, the daily limit is 0 and, when the
    collaborator allows, used_today is 0 - remaining: negative as soon as
    remaining is positive. *)
Theorem get_sms_usage_negative_used w u allowed remaining :
  check_pro_features w u "SMS integration" = None ->
  subscription_tier u <> PRO ->
  subscription_tier u <> ENTERPRISE ->
  check_rate_limit w u = (allowed, remaining) ->
  exists r,
    get_sms_usage w (start u) = (inr r, start u)
    /\ SmsUsageResponse.daily_limit r = 0
    /\ (allowed = true -> SmsUsageResponse.used_today r = 0 - remaining)
    /\ (allowed = true -> 0 < remaining -> SmsUsageResponse.used_today r < 0).
Proof.
  intros Hc Hp He Hr. eexists. split; [exact (get_sms_usage_run w u allowed remaining Hc Hr)|]. simpl.
  destruct (subscription_tier u); try congruence. simpl.
  repeat split.
  - now intros ->.
  - intros -> Hpos. lia.
Qed.

Lemma get_sms_usage_negative_used_witness :
  exists r,
    get_sms_usage (Examples.open_world (true, 3)) (start Examples.dave)
    = (inr r, start Examples.dave)
    /\ SmsUsageResponse.daily_limit r = 0
    /\ SmsUsageResponse.used_today r = -3
    /\ SmsUsageResponse.used_today r < 0.
Proof.
  destruct (get_sms_usage_negative_used (Examples.open_world (true, 3))
              Examples.dave true 3)
    as (r & Hrun & Hlim & Hused & Hneg);
    [reflexivity | discriminate | discriminate | reflexivity |].
  exists r. specialize (Hused eq_refl). specialize (Hneg eq_refl).
  repeat split; [assumption | assumption | lia | apply Hneg; lia].
Defined.

(** ** update_sms_settings *)

Lemma update_sms_settings_run w u b :
  update_sms_settings w b (start u)
  = if truthy_bool (phone_verified u) then
      match commit_raises w with
      | None =>
          (inr (SmsSettingsResponse.mk "SMS settings updated successfully" (Some b)),
           mkHState (set_sms_enabled (Some b) u)
             [Commit (set_sms_enabled (Some b) u)])
      | Some _ =>
          (inl (HTTPException 500 "Database error"),
           mkHState (set_sms_enabled (Some b) u)
             [CommitRaised (set_sms_enabled (Some b) u); Rollback])
      end
    else
      (inl (HTTPException 400
              "Phone number must be verified before changing SMS settings"),
       start u).
Proof.
  unfold update_sms_settings. run.
  destruct (truthy_bool (phone_verified u)); run; [|reflexivity].
  destruct (commit_raises w) as [msg|] eqn:Hcr; run; reflexivity.
Qed.

(** C7. With the verified flag false (or unset) [update_sms_settings] answers
    400 and leaves the user as it was, with nothing committed. With the flag
    true it assigns the requested value to sms_enabled and touches no other
    column; once the commit goes through it answers success with that value,
    and the next [get_profile] returns it. *)
Theorem update_sms_settings_verified_gate w u b :
  (truthy_bool (phone_verified u) = false ->
   update_sms_settings w b (start u)
   = (inl (HTTPException 400
             "Phone number must be verified before changing SMS settings"),
      start u))
  /\ (phone_verified u = Some true ->
      let r := update_sms_settings w b (start u) in
      user_after r = set_sms_enabled (Some b) u
      /\ sms_enabled (user_after r) = Some b
      /\ (commit_raises w = None ->
          response r
          = inr (SmsSettingsResponse.mk "SMS settings updated successfully" (Some b))
          /\ exists p,
               profile_read_after u r = inr p
               /\ ProfileResponse.sms_enabled p = b)).
Proof.
  split.
  - intros Hv. rewrite update_sms_settings_run. now rewrite Hv.
  - intros Hv. cbv zeta. rewrite update_sms_settings_run. rewrite Hv. simpl.
    destruct (commit_raises w) as [msg|] eqn:Hcr.
    + split; [reflexivity|]. split; [reflexivity|]. discriminate.
    + split; [reflexivity|]. split; [reflexivity|]. intros _.
      split; [reflexivity|]. unfold profile_read_after. simpl. eexists.
      split; reflexivity.
Qed.

Lemma update_sms_settings_verified_gate_witness :
  update_sms_settings (Examples.world [] None) true (start Examples.alice)
  = (inl (HTTPException 400
            "Phone number must be verified before changing SMS settings"),
     start Examples.alice)
  /\ sms_enabled (user_after (update_sms_settings (Examples.world [] None) true
                                (start Examples.alice_verified))) = Some true
  /\ exists p,
       profile_read_after Examples.alice_verified
         (update_sms_settings (Examples.world [] None) true
            (start Examples.alice_verified)) = inr p
       /\ ProfileResponse.sms_enabled p = true.
Proof.
  split.
  - apply (proj1 (update_sms_settings_verified_gate
                    (Examples.world [] None) Examples.alice true)).
    reflexivity.
  - destruct (proj2 (update_sms_settings_verified_gate
                       (Examples.world [] None) Examples.alice_verified true)
                eq_refl) as (_ & Hset & Hread).
    split; [exact Hset|].
    destruct (Hread eq_refl) as (_ & p & Hp & Hb).
    exists p. split; assumption.
Defined.

(** ** Which handlers ask for the entitlement *)

(** C9. [remove_phone_number] and [update_sms_settings] do not consult the
    entitlement checker: their outcome is the same under every checker, and
    the only errors they raise are their own (500 on a failed commit, 400 on
    an unverified phone), for a user of any tier. [add_phone_number],
    [verify_phone_number] and [get_sms_usage] start with the checker and
    surface its error. *)
Theorem entitlement_checked_only_where_gated w u :
  (forall c, remove_phone_number (with_checker c w) (start u)
             = remove_phone_number w (start u))
  /\ (forall c b, update_sms_settings (with_checker c w) b (start u)
                  = update_sms_settings w b (start u))
  /\ (forall e, response (remove_phone_number w (start u)) = inl e ->
                e = HTTPException 500 "Database error")
  /\ (forall b e, response (update_sms_settings w b (start u)) = inl e ->
                  e = HTTPException 500 "Database error"
                  \/ e = HTTPException 400
                           "Phone number must be verified before changing SMS settings")
  /\ (forall e, check_pro_features w u "SMS integration" = Some e ->
        (forall p, add_phone_number w p (start u) = (inl e, start u))
        /\ (forall code, verify_phone_number w code (start u) = (inl e, start u))
        /\ get_sms_usage w (start u) = (inl e, start u)).
Proof.
  split; [|split; [|split; [|split]]].
  - intros c. rewrite !remove_phone_number_run. reflexivity.
  - intros c b. rewrite !update_sms_settings_run. reflexivity.
  - intros e. rewrite remove_phone_number_run.
    destruct (commit_raises w); simpl; congruence.
  - intros b e. rewrite update_sms_settings_run.
    destruct (truthy_bool (phone_verified u)); [destruct (commit_raises w)|];
      simpl; intros [= <-]; auto.
  - intros e He. split; [|split].
    + intros p. now apply add_phone_number_requires_pro.
    + intros code. now apply verify_phone_number_requires_pro.
    + now apply get_sms_usage_requires_pro.
Qed.

Lemma entitlement_checked_only_where_gated_witness :
  check_pro_features (Examples.world [] None) Examples.dave "SMS integration"
  = Some (HTTPException 403 "SMS integration requires a Pro subscription")
  /\ response (remove_phone_number (Examples.world [] None) (start Examples.dave))
     = inr (RemovePhoneResponse.mk "Phone number removed successfully")
  /\ get_sms_usage (Examples.world [] None) (start Examples.dave)
     = (inl (HTTPException 403 "SMS integration requires a Pro subscription"),
        start Examples.dave)
  /\ remove_phone_number
       (with_checker (fun _ _ => Some (HTTPException 403 "no"))
          (Examples.world [] None)) (start Examples.dave)
     = remove_phone_number (Examples.world [] None) (start Examples.dave).
Proof.
  split; [reflexivity|]. split; [reflexivity|]. split.
  - apply (entitlement_checked_only_where_gated
             (Examples.world [] None) Examples.dave).
    reflexivity.
  - apply (entitlement_checked_only_where_gated
             (Examples.world [] None) Examples.dave).
Defined.

(** ** The verification-code validator *)






(** C8. The validator is meant to accept exactly the six-digit strings, and
    its pattern ends in [$], which also matches before a final newline: the
    seven-character string made of "123456" and a newline is accepted and
    returned unchanged. *)
Theorem validate_code_accepts_trailing_newline :
  let v := "123456" +:+ String newline EmptyString in
  validate_code v = Valid v
  /\ String.length v = 7%nat
  /\ six_digits v = false.
Proof. cbv zeta. repeat split. Qed.

(** ** The phone-number validator *)

Lemma validate_phone_number_shape v r :
  validate_phone_number v = Valid r ->
  exists t, r = "+1" +:+ t /\ String.length t = 10%nat.
Proof.
  unfold validate_phone_number.
  destruct (Nat.eqb _ 10) eqn:E; simpl; [|discriminate].
  intros [= <-]. apply Nat.eqb_eq in E. eauto.
Qed.




(** C3. The validator is meant to accept the inputs with ten significant
    digits and to return "+1" and those digits; its length test counts the
    plus signs it kept. "+555555123" has nine digits and is accepted, with
    "+1+555555123" as the stored value; "555+555+1234" has ten digits and is
    rejected. *)
Theorem validate_phone_number_counts_plus_signs :
  validate_phone_number "+555555123" = Valid "+1+555555123"
  /\ count_digits "+555555123" = 9%nat
  /\ validate_phone_number "555+555+1234"
     = ValueError "Phone number must be a valid 10-digit US number"
  /\ count_digits "555+555+1234" = 10%nat.
Proof. repeat split. Qed.

(** ** The handlers, step by step *)

(** [add_phone_number] as the cascade of its tests. *)
Lemma add_phone_number_run w p u :
  add_phone_number w p (start u)
  = match check_pro_features w u "SMS integration" with
    | Some e => (inl e, start u)
    | None =>
      if negb (is_configured w) then
        (inl (HTTPException 503 "SMS service is not available at this time"),
         start u)
      else if and_at_least (phone_verification_attempts u) 5 then
        (inl (HTTPException 429
                "Too many verification attempts. Please try again later."),
         start u)
      else if bool_decide (is_Some (other_user_with_phone w p u)) then
        (inl (HTTPException 409
                "This phone number is already registered to another account"),
         start u)
      else
        let stored := store_verification_code w u (generate_verification_code w) in
        if negb (fst stored) then
          (inl (HTTPException 500 "Failed to store verification code"),
           mkHState (snd stored) [])
        else if negb (send_verification_code w p (generate_verification_code w)) then
          (inl (HTTPException 500 "Failed to send verification code"),
           mkHState (snd stored) [])
        else
          let u' := mkUser (id (snd stored)) (user_id (snd stored))
                      (email (snd stored)) (name (snd stored))
                      (subscription_tier (snd stored))
                      (Some p) (Some false)
                      (Some (or_0 (phone_verification_attempts (snd stored)) + 1))
                      (phone_verified_at (snd stored)) (sms_enabled (snd stored))
                      (metadata_ (snd stored)) in
          match commit_raises w with
          | None =>
              (inr (AddPhoneResponse.mk "Verification code sent to your phone" p
                      (SMS_VERIFICATION_TIMEOUT w / 60)),
               mkHState u' [Commit u'])
          | Some _ =>
              (inl (HTTPException 500 "Database error"),
               mkHState u' [CommitRaised u'; Rollback])
          end
    end.
Proof.
  destruct (check_pro_features w u "SMS integration") as [e|] eqn:Hc.
  - now apply add_phone_number_requires_pro.
  - unfold add_phone_number. run.
    destruct (is_configured w); run; [|reflexivity].
    destruct (and_at_least (phone_verification_attempts u) 5); run; [reflexivity|].
    destruct (bool_decide (is_Some (other_user_with_phone w p u))); run;
      [reflexivity|].
    destruct (store_verification_code w u (generate_verification_code w))
      as [[] u1]; run; [|reflexivity].
    destruct (send_verification_code w p (generate_verification_code w)); run;
      [|reflexivity].
    destruct (commit_raises w) as [msg|] eqn:Hcr; run; columns; reflexivity.
Qed.

(** [verify_phone_number] as the cascade of its tests. *)
Lemma verify_phone_number_run w code u :
  verify_phone_number w code (start u)
  = match check_pro_features w u "SMS integration" with
    | Some e => (inl e, start u)
    | None =>
      if negb (truthy_str (phone_number u)) then
        (inl (HTTPException 400
                "No phone number to verify. Please add a phone number first."),
         start u)
      else
        let checked := verify_code w u code in
        if fst checked then
          let u' := set_sms_enabled (Some true)
                      (set_phone_verification_attempts (Some 0) (snd checked)) in
          match commit_raises w with
          | None =>
              (inr (VerifyPhoneResponse.mk "Phone number verified successfully"
                      (phone_number (snd checked)) true),
               mkHState u' [Commit u'])
          | Some msg =>
              (inl (DatabaseError msg), mkHState u' [CommitRaised u'])
          end
        else
          (inl (HTTPException 400 "Invalid or expired verification code"),
           mkHState (snd checked) [])
    end.
Proof.
  destruct (check_pro_features w u "SMS integration") as [e|] eqn:Hc.
  - now apply verify_phone_number_requires_pro.
  - unfold verify_phone_number. run.
    destruct (truthy_str (phone_number u)); run; [|reflexivity].
    destruct (verify_code w u code) as [[] u1]; run; [|reflexivity].
    unfold db_commit. run.
    destruct (commit_raises w) as [msg|]; run; reflexivity.
Qed.

(** ** What a handler commits *)



(** X3. Whenever [get_sms_usage] answers with a remaining allowance between
    0 and the daily limit, the usage it reports is between 0 and the daily
    limit as well. *)
Theorem get_sms_usage_used_within_limit w u r s :
  get_sms_usage w (start u) = (inr r, s) ->
  0 <= SmsUsageResponse.remaining_today r <= SmsUsageResponse.daily_limit r ->
  0 <= SmsUsageResponse.used_today r <= SmsUsageResponse.daily_limit r.
Proof.
  destruct (check_pro_features w u "SMS integration") as [e|] eqn:Hc.
  - rewrite (get_sms_usage_requires_pro w u e Hc). discriminate.
  - destruct (check_rate_limit w u) as [allowed remaining] eqn:Hr.
    rewrite (get_sms_usage_run w u allowed remaining Hc Hr).
    intros [= <- _]. simpl. destruct allowed; lia.
Qed.

Lemma get_sms_usage_used_within_limit_witness :
  exists r,
    get_sms_usage (Examples.world [] None) (start Examples.bob)
    = (inr r, start Examples.bob)
    /\ 0 <= SmsUsageResponse.used_today r <= SmsUsageResponse.daily_limit r.
Proof.
  eexists. split; [reflexivity|].
  apply (get_sms_usage_used_within_limit (Examples.world [] None) Examples.bob
           _ _ eq_refl).
  simpl. lia.
Defined.

(** ** add_phone_number past its preconditions *)

(** X4. With the preconditions met, a verification code that cannot be stored
    or cannot be sent ends the request with a 500 naming the step; the handler
    has then assigned nothing (the user is as the storing collaborator left
    it, so the attempt counter is not incremented) and has not committed. *)
Theorem add_phone_number_collaborator_failure w p u :
  check_pro_features w u "SMS integration" = None ->
  is_configured w = true ->
  and_at_least (phone_verification_attempts u) 5 = false ->
  other_user_with_phone w p u = None ->
  let stored := store_verification_code w u (generate_verification_code w) in
  (fst stored = false ->
   add_phone_number w p (start u)
   = (inl (HTTPException 500 "Failed to store verification code"),
      mkHState (snd stored) []))
  /\ (fst stored = true ->
      send_verification_code w p (generate_verification_code w) = false ->
      add_phone_number w p (start u)
      = (inl (HTTPException 500 "Failed to send verification code"),
         mkHState (snd stored) [])).
Proof.
  intros Hc Hcfg Ha Ho stored. subst stored.
  rewrite add_phone_number_run, Hc, Hcfg, Ha, Ho. cbv zeta.
  rewrite bool_decide_eq_false_2 by (intros [? ?]; discriminate). simpl.
  split.
  - intros ->. reflexivity.
  - intros -> ->. reflexivity.
Qed.

Lemma add_phone_number_collaborator_failure_witness :
  add_phone_number Examples.store_down "+15555550111" (start Examples.erin)
  = (inl (HTTPException 500 "Failed to store verification code"),
     start Examples.erin)
  /\ response (add_phone_number Examples.sms_down "+15555550111"
                 (start Examples.erin))
     = inl (HTTPException 500 "Failed to send verification code")
  /\ phone_number (user_after (add_phone_number Examples.sms_down "+15555550111"
                                 (start Examples.erin))) = None
  /\ phone_verification_attempts
       (user_after (add_phone_number Examples.sms_down "+15555550111"
                      (start Examples.erin))) = None.
Proof.
  split.
  - apply (add_phone_number_collaborator_failure Examples.store_down
             "+15555550111" Examples.erin); reflexivity.
  - rewrite (proj2 (add_phone_number_collaborator_failure Examples.sms_down
                      "+15555550111" Examples.erin eq_refl eq_refl eq_refl eq_refl)
               eq_refl eq_refl).
    repeat split.
Defined.

(** ** The attempt cap across requests *)

Lemma other_user_with_phone_none w p u :
  (forall r, In r (rows w) -> phone_number r <> Some p) ->
  other_user_with_phone w p u = None.
Proof.
  intros H. destruct (other_user_with_phone w p u) as [r|] eqn:E; [|reflexivity].
  apply other_user_with_phone_sound in E as (Hin & Hp & _).
  now apply H in Hin.
Qed.

(** One accepted add request: the stored attempt counter goes up by one. *)
Lemma add_phone_number_counts_attempt w p u :
  check_pro_features w u "SMS integration" = None ->
  is_configured w = true ->
  and_at_least (phone_verification_attempts u) 5 = false ->
  other_user_with_phone w p u = None ->
  fst (store_verification_code w u (generate_verification_code w)) = true ->
  phone_verification_attempts
    (snd (store_verification_code w u (generate_verification_code w)))
  = phone_verification_attempts u ->
  send_verification_code w p (generate_verification_code w) = true ->
  commit_raises w = None ->
  phone_verification_attempts
    (last_committed (db_log (add_phone_number w p (start u))) u)
  = Some (or_0 (phone_verification_attempts u) + 1).
Proof.
  intros Hc Hcfg Ha Ho Hst Hat Hse Hcr.
  rewrite add_phone_number_run, Hc, Hcfg, Ha, Ho. cbv zeta.
  rewrite bool_decide_eq_false_2 by (intros [? ?]; discriminate).
  rewrite Hst, Hse, Hcr, Hat. reflexivity.
Qed.

(** X5. In an environment where every add request goes through (entitlement
    granted, SMS configured, number free, code stored without touching the
    counter, SMS sent, commit accepted), a user without recorded attempts has
    [n] attempts after [n] add requests for n = 1..5, the sixth request is
    answered 429 and leaves the row as it is. *)
Theorem add_phone_number_attempt_cap w p u :
  (forall x, check_pro_features w x "SMS integration" = None) ->
  is_configured w = true ->
  (forall r, In r (rows w) -> phone_number r <> Some p) ->
  (forall x c, fst (store_verification_code w x c) = true
               /\ phone_verification_attempts (snd (store_verification_code w x c))
                  = phone_verification_attempts x) ->
  (forall c, send_verification_code w p c = true) ->
  commit_raises w = None ->
  or_0 (phone_verification_attempts u) = 0 ->
  (forall n, (1 <= n <= 5)%nat ->
     phone_verification_attempts (after_adds w p n u) = Some (Z.of_nat n))
  /\ response (add_phone_number w p (start (after_adds w p 5 u)))
     = inl (HTTPException 429
              "Too many verification attempts. Please try again later.")
  /\ after_adds w p 6 u = after_adds w p 5 u.
Proof.
  intros Hc Hcfg Hrows Hst Hse Hcr H0.
  assert (Hstep : forall x,
            and_at_least (phone_verification_attempts x) 5 = false ->
            phone_verification_attempts
              (last_committed (db_log (add_phone_number w p (start x))) x)
            = Some (or_0 (phone_verification_attempts x) + 1)).
  { intros x Hx. apply add_phone_number_counts_attempt; auto.
    - now apply other_user_with_phone_none.
    - apply Hst.
    - apply Hst. }
  assert (Hor : forall k, or_0 (Some k) = k).
  { intros k. unfold or_0, truthy_int. destruct (k =? 0) eqn:E; simpl; [|reflexivity].
    apply Z.eqb_eq in E. now subst. }
  assert (Hcount : forall n, (1 <= n <= 5)%nat ->
            phone_verification_attempts (after_adds w p n u) = Some (Z.of_nat n)).
  { induction n as [|n IH]; intros Hn; [lia|].
    cbn [after_adds]. cbv zeta. destruct n as [|n].
    - cbn [after_adds]. rewrite Hstep.
      + rewrite H0. reflexivity.
      + apply and_at_least_false. intros k Hk. rewrite Hk, Hor in H0. lia.
    - rewrite Hstep.
      + rewrite IH by lia. rewrite Hor. f_equal. lia.
      + rewrite IH by lia. apply and_at_least_false. intros k [= <-]. lia. }
  assert (H429 : add_phone_number w p (start (after_adds w p 5 u))
                 = (inl (HTTPException 429
                           "Too many verification attempts. Please try again later."),
                    start (after_adds w p 5 u))).
  { rewrite add_phone_number_run, Hc, Hcfg, (Hcount 5%nat) by lia. reflexivity. }
  split; [exact Hcount|]. split.
  - now rewrite H429.
  - change (after_adds w p 6 u)
      with (last_committed
              (db_log (add_phone_number w p (start (after_adds w p 5 u))))
              (after_adds w p 5 u)).
    now rewrite H429.
Qed.

Lemma add_phone_number_attempt_cap_witness :
  phone_verification_attempts
    (after_adds (Examples.open_world (true, 7)) "+15555550111" 5 Examples.erin)
  = Some 5
  /\ response (add_phone_number (Examples.open_world (true, 7)) "+15555550111"
                 (start (after_adds (Examples.open_world (true, 7))
                           "+15555550111" 5 Examples.erin)))
     = inl (HTTPException 429
              "Too many verification attempts. Please try again later.").
Proof.
  destruct (add_phone_number_attempt_cap (Examples.open_world (true, 7))
              "+15555550111" Examples.erin) as (Hn & H429 & _).
  - reflexivity.
  - reflexivity.
  - intros r [].
  - intros x c. split; reflexivity.
  - reflexivity.
  - reflexivity.
  - reflexivity.
  - split; [apply (Hn 5%nat); lia | exact H429].
Defined.

(** X6. Removing the phone number reopens the cap: once the removal is
    committed, an add request by the same user, whatever the attempt counter
    was before, is not answered 429 as long as the entitlement check passes. *)
Theorem remove_phone_number_resets_cap w p u detail :
  commit_raises w = None ->
  let u' := last_committed (db_log (remove_phone_number w (start u))) u in
  check_pro_features w u' "SMS integration" = None ->
  phone_verification_attempts u' = Some 0
  /\ response (add_phone_number w p (start u')) <> inl (HTTPException 429 detail).
Proof.
  intros Hcr u'. subst u'. rewrite remove_phone_number_run, Hcr. cbv zeta.
  unfold db_log. simpl. intros Hc. split; [reflexivity|].
  rewrite add_phone_number_run, Hc, Hcr. unfold response. simpl.
  destruct (is_configured w); simpl; [|congruence].
  destruct (bool_decide _); simpl; [congruence|].
  destruct (store_verification_code _ _ _) as [[] u1]; simpl; [|congruence].
  destruct (send_verification_code _ _ _); simpl; congruence.
Qed.

Lemma remove_phone_number_resets_cap_witness :
  phone_verification_attempts
    (last_committed
       (db_log (remove_phone_number (Examples.world [] None) (start Examples.carol)))
       Examples.carol) = Some 0
  /\ response (add_phone_number (Examples.world [] None) "+15555550111"
                 (start (last_committed
                           (db_log (remove_phone_number (Examples.world [] None)
                                      (start Examples.carol)))
                           Examples.carol)))
     <> inl (HTTPException 429
               "Too many verification attempts. Please try again later.").
Proof.
  apply (remove_phone_number_resets_cap (Examples.world [] None) "+15555550111"
           Examples.carol); reflexivity.
Defined.

(** ** verify_phone_number when it refuses *)

(** X7. With the entitlement granted, [verify_phone_number] answers 400
    without consulting the verification collaborator when the user has no
    phone number, be it unset or the empty string; when the collaborator
    turns the code down it answers 400 as well, commits nothing and assigns
    nothing: the user, attempt counter included, is as the collaborator left
    it. *)
Theorem verify_phone_number_refusals w code u :
  check_pro_features w u "SMS integration" = None ->
  ((phone_number u = None \/ phone_number u = Some "") ->
   verify_phone_number w code (start u)
   = (inl (HTTPException 400
             "No phone number to verify. Please add a phone number first."),
      start u))
  /\ (truthy_str (phone_number u) = true ->
      fst (verify_code w u code) = false ->
      verify_phone_number w code (start u)
      = (inl (HTTPException 400 "Invalid or expired verification code"),
         mkHState (snd (verify_code w u code)) [])).
Proof.
  intros Hc. rewrite verify_phone_number_run, Hc. cbv zeta. split.
  - intros [-> | ->]; reflexivity.
  - intros -> ->. reflexivity.
Qed.

Lemma verify_phone_number_refusals_witness :
  verify_phone_number (Examples.world [] None) "424242" (start Examples.frank)
  = (inl (HTTPException 400
            "No phone number to verify. Please add a phone number first."),
     start Examples.frank)
  /\ verify_phone_number (Examples.world [] None) "000000" (start Examples.alice)
     = (inl (HTTPException 400 "Invalid or expired verification code"),
        start Examples.alice).
Proof.
  split.
  - apply (verify_phone_number_refusals (Examples.world [] None) "424242"
             Examples.frank eq_refl).
    right. reflexivity.
  - apply (verify_phone_number_refusals (Examples.world [] None) "000000"
             Examples.alice eq_refl); reflexivity.
Defined.

(** ** One request after another *)

(** X8. Once a removal is committed the phone has to be added again: a
    verification request is answered 400 (no phone number), a settings update
    is answered 400 (not verified) and changes nothing, and the profile shows
    no phone number, verified = false and sms_enabled = false. *)
Theorem after_removal_nothing_to_verify w u code b :
  commit_raises w = None ->
  let u' := last_committed (db_log (remove_phone_number w (start u))) u in
  (check_pro_features w u' "SMS integration" = None ->
   verify_phone_number w code (start u')
   = (inl (HTTPException 400
             "No phone number to verify. Please add a phone number first."),
      start u'))
  /\ update_sms_settings w b (start u')
     = (inl (HTTPException 400
               "Phone number must be verified before changing SMS settings"),
        start u')
  /\ exists p,
       get_profile (start u') = (inr p, start u')
       /\ ProfileResponse.phone_number p = None
       /\ ProfileResponse.phone_verified p = false
       /\ ProfileResponse.sms_enabled p = false.
Proof.
  intros Hcr u'. subst u'. rewrite remove_phone_number_run, Hcr. cbv zeta.
  unfold db_log. simpl. split; [|split].
  - intros Hc. rewrite verify_phone_number_run, Hc. reflexivity.
  - rewrite update_sms_settings_run. reflexivity.
  - eexists. split; [reflexivity|]. repeat split.
Qed.

Lemma after_removal_nothing_to_verify_witness :
  let u' := last_committed
              (db_log (remove_phone_number (Examples.world [] None)
                         (start Examples.bob))) Examples.bob in
  verify_phone_number (Examples.world [] None) "424242" (start u')
  = (inl (HTTPException 400
            "No phone number to verify. Please add a phone number first."),
     start u')
  /\ update_sms_settings (Examples.world [] None) true (start u')
     = (inl (HTTPException 400
               "Phone number must be verified before changing SMS settings"),
        start u').
Proof.
  destruct (after_removal_nothing_to_verify (Examples.world [] None)
              Examples.bob "424242" true eq_refl) as (Hv & Hu & _).
  split; [apply Hv; reflexivity | exact Hu].
Defined.

(** X9. After a verification that succeeded and was committed, the profile
    shows sms_enabled = true, and a settings update by the same user is
    accepted exactly when the verification collaborator left the verified
    flag set; otherwise it is answered 400. *)
Theorem update_after_verify w code u u1 b :
  check_pro_features w u "SMS integration" = None ->
  truthy_str (phone_number u) = true ->
  verify_code w u code = (true, u1) ->
  commit_raises w = None ->
  let row := last_committed (db_log (verify_phone_number w code (start u))) u in
  response (update_sms_settings w b (start row))
  = (if truthy_bool (phone_verified u1)
     then inr (SmsSettingsResponse.mk "SMS settings updated successfully" (Some b))
     else inl (HTTPException 400
                 "Phone number must be verified before changing SMS settings"))
  /\ exists p,
       get_profile (start row) = (inr p, start row)
       /\ ProfileResponse.sms_enabled p = true
       /\ ProfileResponse.phone_verified p = truthy_bool (phone_verified u1).
Proof.
  intros Hc Hp Hv Hcr row. subst row.
  rewrite verify_phone_number_run, Hc, Hp, Hv, Hcr. cbv zeta.
  unfold db_log. simpl. split.
  - rewrite update_sms_settings_run, Hcr. columns.
    destruct (truthy_bool (phone_verified u1)); reflexivity.
  - eexists. split; [reflexivity|]. repeat split.
Qed.

Lemma update_after_verify_witness :
  response
    (update_sms_settings Examples.marking_world false
       (start (last_committed
                 (db_log (verify_phone_number Examples.marking_world "424242"
                            (start Examples.alice))) Examples.alice)))
  = inr (SmsSettingsResponse.mk "SMS settings updated successfully" (Some false))
  /\ response
       (update_sms_settings (Examples.world [] None) false
          (start (last_committed
                    (db_log (verify_phone_number (Examples.world [] None) "424242"
                               (start Examples.alice))) Examples.alice)))
     = inl (HTTPException 400
              "Phone number must be verified before changing SMS settings").
Proof.
  split.
  - apply (update_after_verify Examples.marking_world "424242" Examples.alice
             (snd (Examples.code_is_marking "424242" Examples.alice "424242"))
             false); reflexivity.
  - apply (update_after_verify (Examples.world [] None) "424242" Examples.alice
             Examples.alice false); reflexivity.
Defined.

(** X10. After an add request that went through, the stored phone number is
    the submitted one and it is unverified, whatever the user's flags were
    before: the profile shows it with verified = false, and a settings update
    is answered 400 and changes nothing. *)
Theorem after_add_phone_is_unverified w p u b :
  response (add_phone_number w p (start u))
  = inr (AddPhoneResponse.mk "Verification code sent to your phone" p
           (SMS_VERIFICATION_TIMEOUT w / 60)) ->
  let row := last_committed (db_log (add_phone_number w p (start u))) u in
  update_sms_settings w b (start row)
  = (inl (HTTPException 400
            "Phone number must be verified before changing SMS settings"),
     start row)
  /\ exists r,
       get_profile (start row) = (inr r, start row)
       /\ ProfileResponse.phone_number r = Some p
       /\ ProfileResponse.phone_verified r = false.
Proof.
  rewrite add_phone_number_run. cbv zeta.
  destruct (check_pro_features w u "SMS integration"); [discriminate|].
  destruct (negb (is_configured w)); [discriminate|].
  destruct (and_at_least _ 5); [discriminate|].
  destruct (bool_decide _); [discriminate|].
  destruct (negb (fst _)); [discriminate|].
  destruct (negb (send_verification_code _ _ _)); [discriminate|].
  destruct (commit_raises w); [discriminate|].
  intros _. unfold db_log. simpl. split.
  - rewrite update_sms_settings_run. reflexivity.
  - eexists. split; [reflexivity|]. repeat split.
Qed.

Lemma after_add_phone_is_unverified_witness :
  let row := last_committed
               (db_log (add_phone_number (Examples.world [] None) "+15555550111"
                          (start Examples.bob))) Examples.bob in
  exists r,
    get_profile (start row) = (inr r, start row)
    /\ ProfileResponse.phone_number r = Some "+15555550111"
    /\ ProfileResponse.phone_verified r = false.
Proof.
  apply (after_add_phone_is_unverified (Examples.world [] None) "+15555550111"
           Examples.bob true).
  reflexivity.
Defined.

(** ** More on the phone-number validator *)

Lemma re_sub_length v :
  (String.length (re_sub_non_digit_plus v) <= String.length v)%nat.
Proof.
  induction v as [|c v IH]; simpl; [lia|].
  destruct (digit_or_plus c); simpl; lia.
Qed.

Lemma re_sub_fixed_cons c s :
  re_sub_non_digit_plus (String c s) = String c s ->
  digit_or_plus c = true /\ re_sub_non_digit_plus s = s.
Proof.
  simpl. destruct (digit_or_plus c).
  - intros [= H]. auto.
  - intros H. assert (Hl := re_sub_length s). rewrite H in Hl. simpl in Hl. lia.
Qed.

Lemma re_sub_idempotent v :
  re_sub_non_digit_plus (re_sub_non_digit_plus v) = re_sub_non_digit_plus v.
Proof.
  induction v as [|c v IH]; simpl; [reflexivity|].
  destruct (digit_or_plus c) eqn:Hc; simpl; [rewrite Hc, IH|]; auto.
Qed.

Lemma re_sub_fixed_slice n s :
  re_sub_non_digit_plus s = s ->
  re_sub_non_digit_plus (slice_from n s) = slice_from n s.
Proof.
  revert s. induction n as [|n IH]; intros [|c s] H; simpl; auto.
  apply re_sub_fixed_cons in H as [_ H]. auto.
Qed.

Lemma re_sub_fixed_strip d :
  re_sub_non_digit_plus d = d ->
  re_sub_non_digit_plus (strip_country_code d) = strip_country_code d.
Proof.
  intros H. unfold strip_country_code.
  repeat case_test; auto using re_sub_fixed_slice.
Qed.


Lemma strip_country_code_plus_one t :
  strip_country_code (String "+" (String "1" t)) = t.
Proof. destruct t; reflexivity. Qed.

(** X11. Normalisation is idempotent: a value the validator returned is
    accepted again and returned unchanged. *)
Theorem validate_phone_number_idempotent v r :
  validate_phone_number v = Valid r ->
  validate_phone_number r = Valid r.
Proof.
  unfold validate_phone_number.
  destruct (Nat.eqb _ 10) eqn:E; simpl; [|discriminate].
  intros [= <-].
  set (t := strip_country_code (re_sub_non_digit_plus v)) in *.
  assert (Ht : re_sub_non_digit_plus t = t)
    by apply re_sub_fixed_strip, re_sub_idempotent.
  change (re_sub_non_digit_plus ("+1" +:+ t))
    with (String "+" (String "1" (re_sub_non_digit_plus t))).
  rewrite Ht, strip_country_code_plus_one.
  now rewrite E.
Qed.

Lemma validate_phone_number_idempotent_witness :
  validate_phone_number "+15555551234" = Valid "+15555551234".
Proof.
  apply (validate_phone_number_idempotent "(555) 555-1234"). reflexivity.
Defined.










Lemma add_phone_number_success_witness :
  let r := add_phone_number (Examples.world [Examples.bob] None) "+15555550111"
             (start Examples.alice) in
  response r
  = inr (AddPhoneResponse.mk "Verification code sent to your phone"
           "+15555550111" 10)
  /\ phone_number (user_after r) = Some "+15555550111"
  /\ phone_verified (user_after r) = Some false
  /\ phone_verification_attempts (user_after r) = Some 2
  /\ db_log r = [Commit (user_after r)].
Proof.
  apply (add_phone_number_success (Examples.world [Examples.bob] None)
           "+15555550111" Examples.alice
           (snd (Examples.storing Examples.alice "424242"))); reflexivity.
Defined.

(** ** Instances *)



